(** * The vSphere problem detector's metrics collector

    A shallow embedding of [pkg/metrics/collector.go] and the properties of
    its stale-versus-fresh swap protocol.

    The Go type [Collector] guards three fields with one [sync.RWMutex]; every
    method takes the lock on entry and releases it on return, so each method
    body runs atomically.  The embedding is the sequential semantics of the
    method bodies: a method is a function from the collector before the call
    to the collector after it.

    Names follow the source.  The specification calls the fields and methods
      [storedMetrics] = current,  [staleMetrics] = stale,
      [markStaleMetrics] = reportStale,
      [AddMetric] = RecordSample,  [ClearStoredMetric] = BeginCycle,
      [FinishedAllChecks] = EndCycle,  [CollectWithStability] = Collect,
      [DescribeWithStability] = Describe. *)

From stdpp Require Import base list gmap strings.

Local Open Scope string_scope.
Local Open Scope list_scope.

(** ** The descriptors of [k8s.io/component-base/metrics] *)

(** [metrics.StabilityLevel]. *)
Inductive StabilityLevel : Set := INTERNAL | ALPHA | BETA | STABLE.

(** [metrics.Desc], as the arguments [metrics.NewDesc] is given. *)
Record Desc : Type := NewDesc {
  fqName : string;
  help : string;
  variableLabels : list string;
  constLabels : gmap string string;
  stabilityLevel : StabilityLevel;
  deprecatedVersion : string
}.

(** A send-only channel [chan<- T], seen from the sender: the values sent on
    it so far, oldest first. *)
Definition chan (T : Type) : Type := list T.

(** [ch <- v] *)
Definition send {T : Type} (ch : chan T) (v : T) : chan T := ch ++ [v].

(** ** Constants *)

Definition VersionLabel : string := "version".
Definition BuildLabel : string := "build".
Definition ApiVersionLabel : string := "api_version".
Definition vCenterUUID : string := "uuid".

Definition HwVersionLabel : string := "hw_version".
Definition cbtMismatchLabel : string := "cbt".

Definition EsxiVersionMetric : Desc :=
  NewDesc
    "vsphere_esxi_version_total"
    "Number of ESXi hosts with given version."
    [VersionLabel; ApiVersionLabel] ∅
    ALPHA "".

Definition HwVersionMetric : Desc :=
  NewDesc
    "vsphere_node_hw_version_total"
    "Number of vSphere nodes with given HW version."
    [HwVersionLabel] ∅
    ALPHA "".

Definition CbtMismatchMetric : Desc :=
  NewDesc
    "vsphere_vm_cbt_checks"
    "Boolean metric based on whether ctkEnabled is consistent or not across all nodes in the cluster."
    [cbtMismatchLabel] ∅
    ALPHA "".

(** The label set of a descriptor. *)
Definition labelSet (d : Desc) : gset string := list_to_set (variableLabels d).

(** ** The collector *)

Section Collector.

(** [metrics.Metric]: a sample.  The collector stores and forwards samples
    and never looks inside one. *)
Context {Metric : Type}.

Record Collector : Type := mkCollector {
  storedMetrics : list Metric;
  staleMetrics : list Metric;
  markStaleMetrics : bool
}.

Definition set_storedMetrics (v : list Metric) (c : Collector) : Collector :=
  mkCollector v (staleMetrics c) (markStaleMetrics c).

Definition set_staleMetrics (v : list Metric) (c : Collector) : Collector :=
  mkCollector (storedMetrics c) v (markStaleMetrics c).

Definition set_markStaleMetrics (v : bool) (c : Collector) : Collector :=
  mkCollector (storedMetrics c) (staleMetrics c) v.

Definition NewMetricsCollector : Collector :=
  {| storedMetrics := [];
     staleMetrics := [];
     markStaleMetrics := false |}.

(** A method with a channel argument returns the collector after the call
    and the channel after the sends. *)
Definition DescribeWithStability (c : Collector) (ch : chan Desc)
  : Collector * chan Desc :=
  let ch := send ch EsxiVersionMetric in
  let ch := send ch HwVersionMetric in
  let ch := send ch CbtMismatchMetric in
  (c, ch).

(** [for _, m := range s { ch <- m }] *)
Definition sendAll (ch : chan Metric) (s : list Metric) : chan Metric :=
  foldl (fun ch m => send ch m) ch s.

Definition CollectWithStability (c : Collector) (ch : chan Metric)
  : Collector * chan Metric :=
  if markStaleMetrics c
  then (c, sendAll ch (staleMetrics c))
  else (c, sendAll ch (storedMetrics c)).

Definition AddMetric (m : Metric) (c : Collector) : Collector :=
  set_storedMetrics (storedMetrics c ++ [m]) c.

Definition ClearStoredMetric (c : Collector) : Collector :=
  let c :=
    if negb (markStaleMetrics c)
    then
      let c := set_markStaleMetrics true c in
      set_staleMetrics (storedMetrics c) c
    else c in
  set_storedMetrics [] c.

Definition FinishedAllChecks (c : Collector) : Collector :=
  let c := set_staleMetrics (storedMetrics c) c in
  set_markStaleMetrics false c.

(** What one scrape receives: the samples sent on a channel that was empty
    before the call. *)
Definition Collect (c : Collector) : list Metric :=
  (CollectWithStability c []).2.

(** What one registration receives. *)
Definition Describe (c : Collector) : list Desc :=
  (DescribeWithStability c []).2.

(** ** Call sequences *)

(** One call of the check runner. *)
Inductive Call : Type :=
  | CallClearStoredMetric
  | CallAddMetric (m : Metric)
  | CallFinishedAllChecks.

Definition call (c : Collector) (k : Call) : Collector :=
  match k with
  | CallClearStoredMetric => ClearStoredMetric c
  | CallAddMetric m => AddMetric m c
  | CallFinishedAllChecks => FinishedAllChecks c
  end.

(** The collector after a sequence of calls, first call first. *)
Definition run (ks : list Call) (c : Collector) : Collector :=
  foldl call c ks.

Definition isFinishedAllChecks (k : Call) : bool :=
  match k with
  | CallFinishedAllChecks => true
  | _ => false
  end.

(** No call of the sequence ends a cycle. *)
Definition cycleOpen (ks : list Call) : bool :=
  forallb (fun k => negb (isFinishedAllChecks k)) ks.

End Collector.

Arguments Collector : clear implicits.
Arguments Call : clear implicits.

(** ** The collector over Go slices

    A Go slice is a window [(array, len, cap)] on a backing array, and
    [c.staleMetrics = c.storedMetrics] copies the window, not the array: both
    fields then look at the same array.  This second embedding keeps the
    arrays in a heap, so that an [append] that writes in place is seen by
    every slice on that array.  It is related to the embedding over
    sequences above by [abs]. *)

Module Slices.

Section Slices.

Context {Metric : Type}.

(** The zero value of [metrics.Metric] (the nil interface), which fills the
    unused cells of a fresh array. *)
Context (zeroMetric : Metric).

(** The capacity the runtime picks when [append] has to grow a slice of
    capacity [oldCap] to hold [newLen] elements.  The language only promises
    that it is large enough. *)
Context (growcap : nat -> nat -> nat).

Record slice : Type := mkSlice {
  array : nat;
  len : nat;
  cap : nat
}.

(** The address of every zero-sized allocation. *)
Definition zerobase : nat := 0.

(** The elements [s[0], ..., s[len-1]] of a slice. *)
Definition elems (h : gmap nat (list Metric)) (s : slice) : list Metric :=
  take (len s) (default [] (h !! array s)).

(** [[]metrics.Metric{}] *)
Definition emptySlice : slice := mkSlice zerobase 0 0.

(** [append(s, m)]: in place while the capacity allows, else into a fresh
    array that holds a copy of the elements. *)
Definition append (h : gmap nat (list Metric)) (s : slice) (m : Metric)
  : gmap nat (list Metric) * slice :=
  if decide (len s < cap s)
  then (alter (fun a => <[len s := m]> a) (array s) h,
        mkSlice (array s) (S (len s)) (cap s))
  else
    let newcap := growcap (cap s) (S (len s)) in
    let p := fresh (dom h) in
    let a := elems h s ++ m :: replicate (newcap - S (len s)) zeroMetric in
    (<[p := a]> h, mkSlice p (S (len s)) newcap).

Record Collector : Type := mkCollector {
  mem : gmap nat (list Metric);
  storedMetrics : slice;
  staleMetrics : slice;
  markStaleMetrics : bool
}.

Definition NewMetricsCollector : Collector :=
  {| mem := {[ zerobase := [] ]};
     storedMetrics := emptySlice;
     staleMetrics := emptySlice;
     markStaleMetrics := false |}.

Definition CollectWithStability (c : Collector) (ch : chan Metric)
  : Collector * chan Metric :=
  if markStaleMetrics c
  then (c, sendAll ch (elems (mem c) (staleMetrics c)))
  else (c, sendAll ch (elems (mem c) (storedMetrics c))).

Definition AddMetric (m : Metric) (c : Collector) : Collector :=
  let '(h, s) := append (mem c) (storedMetrics c) m in
  mkCollector h s (staleMetrics c) (markStaleMetrics c).

Definition ClearStoredMetric (c : Collector) : Collector :=
  let c :=
    if negb (markStaleMetrics c)
    then
      let c := mkCollector (mem c) (storedMetrics c) (staleMetrics c) true in
      mkCollector (mem c) (storedMetrics c) (storedMetrics c) (markStaleMetrics c)
    else c in
  mkCollector (mem c) emptySlice (staleMetrics c) (markStaleMetrics c).

Definition FinishedAllChecks (c : Collector) : Collector :=
  let c :=
    mkCollector (mem c) (storedMetrics c) (storedMetrics c) (markStaleMetrics c) in
  mkCollector (mem c) (storedMetrics c) (staleMetrics c) false.

Definition call (c : Collector) (k : Call Metric) : Collector :=
  match k with
  | CallClearStoredMetric => ClearStoredMetric c
  | CallAddMetric m => AddMetric m c
  | CallFinishedAllChecks => FinishedAllChecks c
  end.

Definition run (ks : list (Call Metric)) (c : Collector) : Collector :=
  foldl call c ks.

(** A slice is valid when its array is allocated, as long as the capacity
    says, and the length is within the capacity. *)
Definition valid (h : gmap nat (list Metric)) (s : slice) : Prop :=
  exists a, h !! array s = Some a /\ length a = cap s /\ len s <= cap s.

(** The states the methods keep the collector in: both slices are valid,
    nothing but empty slices lives at [zerobase], and when the two slices
    share an array the stale one is a prefix of the stored one. *)
Record inv (c : Collector) : Prop := mkInv {
  inv_zerobase : mem c !! zerobase = Some [];
  inv_stored : valid (mem c) (storedMetrics c);
  inv_stale : valid (mem c) (staleMetrics c);
  inv_shared :
    array (staleMetrics c) = array (storedMetrics c) ->
    len (staleMetrics c) <= len (storedMetrics c)
}.

End Slices.

Arguments Collector : clear implicits.

(** One growth policy: the capacity doubles, or is the length asked for
    when that is larger. *)
Definition doubling (oldCap newLen : nat) : nat := max newLen (2 * oldCap).

End Slices.

(** The sequences a collector over slices stands for. *)
Definition abs {Metric : Type} (c : Slices.Collector Metric)
  : Collector Metric :=
  {| storedMetrics := Slices.elems (Slices.mem c) (Slices.storedMetrics c);
     staleMetrics := Slices.elems (Slices.mem c) (Slices.staleMetrics c);
     markStaleMetrics := Slices.markStaleMetrics c |}.

(** ** What a call sequence adds *)

Section Traces.

Context {Metric : Type}.

Definition isClearStoredMetric (k : Call Metric) : bool :=
  match k with
  | CallClearStoredMetric => true
  | _ => false
  end.

(** No call of the sequence is [ClearStoredMetric]. *)
Definition noClear (ks : list (Call Metric)) : bool :=
  forallb (fun k => negb (isClearStoredMetric k)) ks.

(** The samples the [AddMetric] calls of a sequence hand over, first call
    first. *)
Fixpoint added (ks : list (Call Metric)) : list Metric :=
  match ks with
  | [] => []
  | CallAddMetric m :: ks => m :: added ks
  | _ :: ks => added ks
  end.

(** [s] is a run of consecutive elements of [l]. *)
Definition segment (s l : list Metric) : Prop :=
  exists l1 l2, l = l1 ++ s ++ l2.

(** While [markStaleMetrics] is not set, [staleMetrics] is a prefix of
    [storedMetrics]. *)
Definition staleBehind (c : Collector Metric) : Prop :=
  markStaleMetrics c = true \/ staleMetrics c `prefix_of` storedMetrics c.

End Traces.

(** ** Basic facts *)

Section Facts.

Context {Metric : Type}.
Implicit Types (c : Collector Metric) (m : Metric) (s : list Metric).
Implicit Types (ks : list (Call Metric)).

Lemma sendAll_app (ch : chan Metric) s : sendAll ch s = ch ++ s.
Proof.
  unfold sendAll. revert ch.
  induction s as [|m s IH]; intros ch; simpl.
  - by rewrite app_nil_r.
  - rewrite IH. unfold send. by rewrite <- app_assoc.
Qed.

(** The samples a scrape is served. *)
Lemma Collect_served c :
  Collect c = if markStaleMetrics c then staleMetrics c else storedMetrics c.
Proof.
  unfold Collect, CollectWithStability.
  destruct (markStaleMetrics c); simpl; apply sendAll_app.
Qed.

Lemma ClearStoredMetric_fresh c :
  markStaleMetrics c = false ->
  ClearStoredMetric c = mkCollector [] (storedMetrics c) true.
Proof. destruct c; simpl; intros ->; reflexivity. Qed.

Lemma ClearStoredMetric_marked c :
  markStaleMetrics c = true ->
  ClearStoredMetric c = mkCollector [] (staleMetrics c) true.
Proof. destruct c; simpl; intros ->; reflexivity. Qed.

Lemma run_nil c : run [] c = c.
Proof. done. Qed.

Lemma run_cons k ks c : run (k :: ks) c = run ks (call c k).
Proof. done. Qed.

Lemma run_app ks1 ks2 c : run (ks1 ++ ks2) c = run ks2 (run ks1 c).
Proof. unfold run. apply foldl_app. Qed.

(** Samples added in a row land at the end of [storedMetrics], in order. *)
Lemma run_AddMetric s c :
  run (CallAddMetric <$> s) c =
  mkCollector (storedMetrics c ++ s) (staleMetrics c) (markStaleMetrics c).
Proof.
  revert c. induction s as [|m s IH]; intros c.
  - destruct c; simpl. by rewrite app_nil_r.
  - rewrite fmap_cons, run_cons, IH. simpl. by rewrite <- app_assoc.
Qed.

(** While a cycle is open the stale generation stays as it is, and stays
    the one that is served. *)
Lemma cycleOpen_keeps_stale ks c :
  cycleOpen ks = true ->
  markStaleMetrics c = true ->
  markStaleMetrics (run ks c) = true /\
  staleMetrics (run ks c) = staleMetrics c.
Proof.
  revert c. induction ks as [|k ks IH]; intros c Hopen Hmark; [done|].
  simpl in Hopen. apply andb_prop in Hopen as [Hk Hopen].
  rewrite run_cons.
  destruct k as [|m|]; simpl in Hk; [| |done].
  - simpl. rewrite (ClearStoredMetric_marked c Hmark).
    destruct (IH (mkCollector [] (staleMetrics c) true) Hopen eq_refl) as [-> ->].
    done.
  - exact (IH (AddMetric m c) Hopen Hmark).
Qed.

End Facts.

(** ** The embedding over slices refines the embedding over sequences *)

Section SlicesFacts.

Context {Metric : Type} (zeroMetric : Metric) (growcap : nat -> nat -> nat).

(** [append] allocates a sufficiently large array. *)
Hypothesis growcap_fits : forall oldCap newLen, newLen <= growcap oldCap newLen.

Implicit Types (h : gmap nat (list Metric)) (s t : Slices.slice).
Implicit Types (c : Slices.Collector Metric) (m : Metric).

Local Abbreviation append := (Slices.append zeroMetric growcap).
Local Abbreviation hAddMetric := (Slices.AddMetric zeroMetric growcap).
Local Abbreviation hcall := (Slices.call zeroMetric growcap).
Local Abbreviation hrun := (Slices.run zeroMetric growcap).

Lemma take_S_insert (a : list Metric) n m :
  n < length a -> take (S n) (<[n := m]> a) = take n a ++ [m].
Proof.
  intros Hn. rewrite (insert_take_drop a n m Hn).
  replace (take n a ++ m :: drop (S n) a)
    with ((take n a ++ [m]) ++ drop (S n) a) by (by rewrite <- app_assoc).
  apply take_app_length'. rewrite length_app, length_take. simpl. lia.
Qed.

Lemma elems_length h s : Slices.valid h s -> length (Slices.elems h s) = Slices.len s.
Proof.
  intros (a & Ha & Hlen & Hle). unfold Slices.elems.
  rewrite Ha. simpl. rewrite length_take. lia.
Qed.

(** What [append] does to the slice it is given, and to any other slice [t]
    that does not reach beyond it on a shared array. *)
Lemma append_spec h s m :
  h !! Slices.zerobase = Some [] ->
  Slices.valid h s ->
  (append h s m).1 !! Slices.zerobase = Some [] /\
  Slices.valid (append h s m).1 (append h s m).2 /\
  Slices.elems (append h s m).1 (append h s m).2 = Slices.elems h s ++ [m] /\
  forall t,
    Slices.valid h t ->
    (Slices.array t = Slices.array s -> Slices.len t <= Slices.len s) ->
    Slices.valid (append h s m).1 t /\
    Slices.elems (append h s m).1 t = Slices.elems h t /\
    (Slices.array t = Slices.array (append h s m).2 ->
     Slices.len t <= Slices.len (append h s m).2).
Proof.
  intros Hz Hs. pose proof Hs as (a & Ha & Hlen & Hle).
  unfold Slices.append. destruct (decide (Slices.len s < Slices.cap s)) as [Hlt|Hge]; simpl.
  - (* in place *)
    assert (Slices.array s <> Slices.zerobase) as Hnz.
    { intros E. rewrite E, Hz in Ha. injection Ha as <-. simpl in Hlen. lia. }
    split; [by rewrite lookup_alter_ne|].
    split.
    { exists (<[Slices.len s := m]> a). simpl.
      rewrite lookup_alter_eq, Ha, length_insert. repeat split; [done|lia]. }
    split.
    { unfold Slices.elems. simpl. rewrite lookup_alter_eq, Ha. simpl.
      apply take_S_insert. lia. }
    intros t (b & Hb & Hblen & Hble) Hshare.
    destruct (decide (Slices.array t = Slices.array s)) as [E|NE].
    + rewrite E in Hb. rewrite Ha in Hb. injection Hb as <-.
      specialize (Hshare E). repeat split.
      * exists (<[Slices.len s := m]> a).
        rewrite E, lookup_alter_eq, Ha, length_insert. repeat split; [done|lia].
      * unfold Slices.elems. rewrite E, lookup_alter_eq, Ha. simpl.
        by rewrite take_insert_ge.
      * lia.
    + repeat split.
      * exists b. by rewrite lookup_alter_ne.
      * unfold Slices.elems. by rewrite lookup_alter_ne.
      * done.
  - (* into a fresh array *)
    set (p := fresh (dom h)).
    assert (h !! p = None) as Hp.
    { apply not_elem_of_dom. apply is_fresh. }
    assert (p <> Slices.zerobase) as Hpz by congruence.
    pose proof (elems_length h s Hs) as Hel.
    pose proof (growcap_fits (Slices.cap s) (S (Slices.len s))) as Hfit.
    split; [by rewrite lookup_insert_ne|].
    split.
    { eexists. simpl. rewrite lookup_insert_eq. split; [done|].
      rewrite length_app. simpl. rewrite length_replicate, Hel. lia. }
    split.
    { unfold Slices.elems at 1. simpl. rewrite lookup_insert_eq. simpl.
      rewrite (app_assoc _ [m] _ : _ ++ m :: _ = _).
      apply take_app_length'. rewrite length_app, Hel. simpl. lia. }
    intros t (b & Hb & Hblen & Hble) _.
    assert (Slices.array t <> p) as NE by congruence.
    repeat split.
    + exists b. by rewrite lookup_insert_ne.
    + unfold Slices.elems. by rewrite lookup_insert_ne.
    + done.
Qed.

Lemma NewMetricsCollector_refines :
  Slices.inv (Slices.NewMetricsCollector (Metric := Metric)) /\
  abs (Slices.NewMetricsCollector (Metric := Metric)) = NewMetricsCollector.
Proof.
  split; [|done].
  assert (Slices.valid (Metric := Metric) {[Slices.zerobase := []]} Slices.emptySlice).
  { exists []. by rewrite lookup_singleton_eq. }
  split; simpl; [by rewrite lookup_singleton_eq|done|done|done].
Qed.

Lemma AddMetric_refines m c :
  Slices.inv c ->
  Slices.inv (hAddMetric m c) /\ abs (hAddMetric m c) = AddMetric m (abs c).
Proof.
  intros [Hz Hst Hsl Hsh].
  destruct (append_spec (Slices.mem c) (Slices.storedMetrics c) m Hz Hst)
    as (Hz' & Hst' & Hel & Hother).
  destruct (Hother (Slices.staleMetrics c) Hsl Hsh) as (Hsl' & Hel' & Hsh').
  unfold Slices.AddMetric.
  destruct (append (Slices.mem c) (Slices.storedMetrics c) m) as [h' s'].
  simpl in *. split; [by split|].
  unfold abs, AddMetric, set_storedMetrics. simpl. by rewrite Hel, Hel'.
Qed.

Lemma valid_emptySlice h :
  h !! Slices.zerobase = Some [] -> Slices.valid h Slices.emptySlice.
Proof. intros Hz. exists []. cbn. by rewrite Hz. Qed.

Lemma elems_emptySlice h : Slices.elems h Slices.emptySlice = [].
Proof. done. Qed.

(** A valid slice at [zerobase] is empty. *)
Lemma valid_zerobase h s :
  h !! Slices.zerobase = Some [] ->
  Slices.valid h s ->
  Slices.array s = Slices.zerobase ->
  Slices.len s = 0.
Proof.
  intros Hz (a & Ha & Hlen & Hle) E. rewrite E, Hz in Ha.
  injection Ha as <-. simpl in Hlen. lia.
Qed.

Lemma ClearStoredMetric_refines c :
  Slices.inv c ->
  Slices.inv (Slices.ClearStoredMetric c) /\
  abs (Slices.ClearStoredMetric c) = ClearStoredMetric (abs c).
Proof.
  intros [Hz Hst Hsl Hsh]. destruct c as [h st sl [|]]; simpl in *.
  - split; [|done].
    split; simpl; [done|by apply valid_emptySlice|done|].
    intros E. rewrite (valid_zerobase _ _ Hz Hsl E). done.
  - split; [|done].
    split; simpl; [done|by apply valid_emptySlice|done|].
    intros E. rewrite (valid_zerobase _ _ Hz Hst E). done.
Qed.

Lemma FinishedAllChecks_refines c :
  Slices.inv c ->
  Slices.inv (Slices.FinishedAllChecks c) /\
  abs (Slices.FinishedAllChecks c) = FinishedAllChecks (abs c).
Proof. intros [Hz Hst Hsl Hsh]. split; [by split|done]. Qed.

Lemma call_refines k c :
  Slices.inv c ->
  Slices.inv (hcall c k) /\ abs (hcall c k) = call (abs c) k.
Proof.
  destruct k as [|m|]; simpl.
  - apply ClearStoredMetric_refines.
  - apply AddMetric_refines.
  - apply FinishedAllChecks_refines.
Qed.

(** Every sequence of calls keeps the invariant, and the collector over
    slices keeps standing for the collector over sequences. *)
Lemma run_refines (ks : list (Call Metric)) c :
  Slices.inv c ->
  Slices.inv (hrun ks c) /\ abs (hrun ks c) = run ks (abs c).
Proof.
  revert c. induction ks as [|k ks IH]; intros c Hinv; [done|].
  destruct (call_refines k c Hinv) as [Hinv' Habs].
  destruct (IH _ Hinv') as [Hinv'' Habs'].
  split; [done|]. unfold Slices.run, run in *. simpl.
  by rewrite Habs', Habs.
Qed.

(** A scrape of the collector over slices sends what a scrape of the
    collector over sequences sends, and changes nothing. *)
Lemma CollectWithStability_refines c (ch : chan Metric) :
  Slices.CollectWithStability c ch = (c, (CollectWithStability (abs c) ch).2).
Proof.
  unfold Slices.CollectWithStability, CollectWithStability, abs. simpl.
  by destruct (Slices.markStaleMetrics c).
Qed.

(** After any sequence of calls on a new collector, the two embeddings
    serve the same samples. *)
Lemma reachable_refines (ks : list (Call Metric)) (ch : chan Metric) :
  (Slices.CollectWithStability (hrun ks Slices.NewMetricsCollector) ch).2 =
  (CollectWithStability (run ks NewMetricsCollector) ch).2.
Proof.
  destruct NewMetricsCollector_refines as [Hinv Habs].
  destruct (run_refines ks _ Hinv) as [_ Hrun].
  rewrite CollectWithStability_refines. simpl. by rewrite Hrun, Habs.
Qed.

(** [AddMetric] may write into an array that [staleMetrics] shares, and
    still the stale samples are the ones they were. *)
Lemma AddMetric_keeps_stale_elems m c :
  Slices.inv c ->
  Slices.elems (Slices.mem (hAddMetric m c)) (Slices.staleMetrics (hAddMetric m c))
    = Slices.elems (Slices.mem c) (Slices.staleMetrics c).
Proof.
  intros Hinv. destruct (AddMetric_refines m c Hinv) as [_ Habs].
  exact (f_equal staleMetrics Habs).
Qed.

(** Every collector reached from a new one satisfies the invariant. *)
Lemma reachable_inv (ks : list (Call Metric)) :
  Slices.inv (hrun ks Slices.NewMetricsCollector).
Proof.
  destruct NewMetricsCollector_refines as [Hinv _].
  by destruct (run_refines ks _ Hinv).
Qed.

End SlicesFacts.

Lemma doubling_fits oldCap newLen : newLen <= Slices.doubling oldCap newLen.
Proof. unfold Slices.doubling. lia. Qed.

(** The refinement under the doubling policy. *)
Lemma reachable_refines_doubling {Metric : Type} (zeroMetric : Metric)
    (ks : list (Call Metric)) (ch : chan Metric) :
  (Slices.CollectWithStability
     (Slices.run zeroMetric Slices.doubling ks Slices.NewMetricsCollector) ch).2 =
  (CollectWithStability (run ks NewMetricsCollector) ch).2.
Proof. apply reachable_refines, doubling_fits. Qed.

(** With the doubling policy, a sample added after [FinishedAllChecks] is
    written into the array the two slices share, and the stale slice still
    stands for the samples it stood for. *)
Example shared_array :
  let c := Slices.run "" Slices.doubling
             [CallAddMetric "a"; CallAddMetric "b"; CallAddMetric "c";
              CallFinishedAllChecks; CallAddMetric "d"]
             Slices.NewMetricsCollector in
  Slices.array (Slices.staleMetrics c) = Slices.array (Slices.storedMetrics c) /\
  Slices.mem c !! Slices.array (Slices.storedMetrics c) = Some ["a"; "b"; "c"; "d"] /\
  abs c = mkCollector ["a"; "b"; "c"; "d"] ["a"; "b"; "c"] false.
Proof. vm_compute. done. Qed.

(** ** The swap protocol *)

Section Protocol.

Context {Metric : Type}.
Implicit Types (c : Collector Metric) (m a b x : Metric) (s : list Metric).
Implicit Types (ks pre : list (Call Metric)).

(** Once [markStaleMetrics] is set, whatever is called before the next
    [FinishedAllChecks] leaves the served samples as they are. *)
Lemma Collect_cycleOpen ks c :
  cycleOpen ks = true ->
  markStaleMetrics c = true ->
  Collect (run ks c) = Collect c.
Proof.
  intros Hopen Hmark.
  destruct (cycleOpen_keeps_stale ks c Hopen Hmark) as [Hm Hs].
  by rewrite !Collect_served, Hm, Hs, Hmark.
Qed.

(** A scrape just after [FinishedAllChecks] is served [storedMetrics]. *)
Lemma Collect_FinishedAllChecks c :
  Collect (FinishedAllChecks c) = storedMetrics c.
Proof. by rewrite Collect_served. Qed.

(** [ClearStoredMetric] does not change what a scrape is served. *)
Lemma Collect_ClearStoredMetric c :
  Collect (ClearStoredMetric c) = Collect c.
Proof.
  rewrite !Collect_served. by destruct c as [st sl [|]].
Qed.

(** The samples added since the last [ClearStoredMetric] are what
    [storedMetrics] holds. *)
Lemma storedMetrics_cycle pre s c :
  storedMetrics (run (pre ++ CallClearStoredMetric :: (CallAddMetric <$> s)) c) = s.
Proof.
  rewrite run_app, run_cons, run_AddMetric. simpl.
  by destruct (run pre c) as [st sl [|]].
Qed.

(** C1: for every collector, a second [ClearStoredMetric] with no
    [FinishedAllChecks] since the first one, whatever else was called in
    between, serves a scrape the same samples as the first
    [ClearStoredMetric] alone; the second call changes neither
    [staleMetrics] nor [markStaleMetrics], which are still as the first call
    left them, so nothing staged is lost. *)
Theorem C1_ClearStoredMetric_twice c ks :
  cycleOpen ks = true ->
  let c1 := ClearStoredMetric c in
  let c2 := run ks c1 in
  Collect (ClearStoredMetric c2) = Collect c1 /\
  staleMetrics (ClearStoredMetric c2) = staleMetrics c2 /\
  markStaleMetrics (ClearStoredMetric c2) = markStaleMetrics c2 /\
  staleMetrics (ClearStoredMetric c2) = staleMetrics c1 /\
  markStaleMetrics (ClearStoredMetric c2) = markStaleMetrics c1.
Proof.
  intros Hopen c1 c2.
  assert (markStaleMetrics c1 = true) as Hm1
    by (subst c1; by destruct c as [st sl [|]]).
  destruct (cycleOpen_keeps_stale ks c1 Hopen Hm1) as [Hm2 Hs2].
  fold c2 in Hm2, Hs2.
  rewrite (ClearStoredMetric_marked c2 Hm2), !Collect_served, Hm1, Hm2, Hs2.
  done.
Qed.

(** C2, as amended: at every point after a [FinishedAllChecks], a scrape is
    served the generation that call committed followed by the samples added
    after it, and a later [ClearStoredMetric], with whatever is called before
    the next [FinishedAllChecks], does not change what is served.  The
    served samples are empty when that sequence is: nothing makes a cycle
    record a sample. *)
Theorem C2_no_visible_gap c pre s ks :
  cycleOpen ks = true ->
  let committed := storedMetrics (run (pre ++ [CallFinishedAllChecks]) c) in
  staleMetrics (run (pre ++ [CallFinishedAllChecks]) c) = committed /\
  Collect (run (pre ++ CallFinishedAllChecks :: (CallAddMetric <$> s)) c)
    = committed ++ s /\
  Collect (run (pre ++ CallFinishedAllChecks :: (CallAddMetric <$> s)
                   ++ CallClearStoredMetric :: ks) c)
    = committed ++ s.
Proof.
  intros Hopen committed. subst committed.
  rewrite !run_app, !run_cons, run_nil. simpl call.
  set (c1 := FinishedAllChecks (run pre c)).
  assert (Collect (run (CallAddMetric <$> s) c1) = storedMetrics c1 ++ s) as Hlate.
  { by rewrite run_AddMetric, Collect_served. }
  split; [done|]. split; [done|].
  rewrite run_app, run_cons. simpl call.
  rewrite Collect_cycleOpen; [|done|].
  - by rewrite Collect_ClearStoredMetric.
  - by destruct (run (CallAddMetric <$> s) c1) as [st sl [|]].
Qed.

(** C3, as amended: for every collector whose [markStaleMetrics] is already
    set, [ClearStoredMetric] leaves [staleMetrics] and [markStaleMetrics] as
    they are and empties [storedMetrics]; the collector is the same after the
    call exactly when [storedMetrics] was empty before it. *)
Theorem C3_ClearStoredMetric_marked c :
  markStaleMetrics c = true ->
  staleMetrics (ClearStoredMetric c) = staleMetrics c /\
  markStaleMetrics (ClearStoredMetric c) = markStaleMetrics c /\
  storedMetrics (ClearStoredMetric c) = [] /\
  (ClearStoredMetric c = c <-> storedMetrics c = []).
Proof.
  intros Hmark. rewrite (ClearStoredMetric_marked c Hmark).
  destruct c as [st sl mk]; simpl in *; subst mk.
  repeat split; [by intros [= <-]|by intros ->].
Qed.

(** C4: for every collector, [ClearStoredMetric], [AddMetric a],
    [AddMetric b], [FinishedAllChecks] in this order leave a scrape served
    exactly [a] then [b]: nothing twice, nothing of an earlier generation. *)
Theorem C4_cycle_of_two c a b (ch : chan Metric) :
  Collect (FinishedAllChecks (AddMetric b (AddMetric a (ClearStoredMetric c)))) = [a; b] /\
  Collect (run [CallClearStoredMetric; CallAddMetric a; CallAddMetric b;
                CallFinishedAllChecks] c) = [a; b] /\
  (CollectWithStability
     (FinishedAllChecks (AddMetric b (AddMetric a (ClearStoredMetric c)))) ch).2
    = ch ++ [a; b].
Proof.
  assert (storedMetrics (AddMetric b (AddMetric a (ClearStoredMetric c))) = [a; b])
    as Hst by (by destruct c as [st sl [|]]).
  split; [|split].
  - by rewrite Collect_FinishedAllChecks.
  - unfold run. cbn [foldl call]. by rewrite Collect_FinishedAllChecks.
  - unfold CollectWithStability. cbn [markStaleMetrics FinishedAllChecks set_markStaleMetrics snd].
    by rewrite sendAll_app.
Qed.

End Protocol.

(** ** The methods one by one *)

Section Methods.

Context {Metric : Type}.
Implicit Types (c : Collector Metric) (m x : Metric).

(** C5, as amended: for every collector and every call order,
    [DescribeWithStability] sends exactly three descriptors in fixed order,
    [EsxiVersionMetric], [HwVersionMetric], [CbtMismatchMetric], whose label
    sets are exactly {version, api_version}, {hw_version} and {cbt}; it
    neither reads nor changes the collector. *)
Theorem C5_Describe_fixed c (ch : chan Desc) :
  DescribeWithStability c ch =
    (c, ch ++ [EsxiVersionMetric; HwVersionMetric; CbtMismatchMetric]) /\
  Describe c = [EsxiVersionMetric; HwVersionMetric; CbtMismatchMetric] /\
  variableLabels <$> Describe c = [["version"; "api_version"]; ["hw_version"]; ["cbt"]] /\
  labelSet <$> Describe c = [{["version"; "api_version"]}; {["hw_version"]}; {["cbt"]}] /\
  forall c' : Collector Metric, Describe c' = Describe c.
Proof.
  split; [|split; [|split; [|split]]].
  - unfold DescribeWithStability, send. by rewrite <- !app_assoc.
  - done.
  - done.
  - unfold Describe, labelSet. simpl. repeat f_equal; set_solver.
  - done.
Qed.

(** C6: for every collector whose [markStaleMetrics] is not set,
    [ClearStoredMetric] makes [staleMetrics] the sequence [storedMetrics]
    was on entry, sets [markStaleMetrics], and empties [storedMetrics]. *)
Theorem C6_ClearStoredMetric_unmarked c :
  markStaleMetrics c = false ->
  staleMetrics (ClearStoredMetric c) = storedMetrics c /\
  markStaleMetrics (ClearStoredMetric c) = true /\
  storedMetrics (ClearStoredMetric c) = [].
Proof. intros Hmark. by rewrite (ClearStoredMetric_fresh c Hmark). Qed.

(** C7: for every collector, [FinishedAllChecks] makes [staleMetrics] equal
    to [storedMetrics], clears [markStaleMetrics] and leaves [storedMetrics]
    as it is, so that both fields hold the same samples afterwards. *)
Theorem C7_FinishedAllChecks c :
  staleMetrics (FinishedAllChecks c) = storedMetrics c /\
  markStaleMetrics (FinishedAllChecks c) = false /\
  storedMetrics (FinishedAllChecks c) = storedMetrics c /\
  staleMetrics (FinishedAllChecks c) = storedMetrics (FinishedAllChecks c).
Proof. done. Qed.

(** C8: for every collector, [CollectWithStability] sends exactly
    [staleMetrics] when [markStaleMetrics] is set and exactly
    [storedMetrics] when it is not, the whole of one generation and nothing
    of the other, and leaves the collector as it is. *)
Theorem C8_Collect_one_generation c (ch : chan Metric) :
  CollectWithStability c ch =
    (c, ch ++ if markStaleMetrics c then staleMetrics c else storedMetrics c) /\
  Collect c = (if markStaleMetrics c then staleMetrics c else storedMetrics c).
Proof.
  split; [|apply Collect_served].
  unfold CollectWithStability.
  destruct (markStaleMetrics c); by rewrite sendAll_app.
Qed.

(** C9: for every collector and every sample, [AddMetric] puts the sample
    at the end of [storedMetrics], which grows by exactly one element, and
    leaves [staleMetrics] and [markStaleMetrics] as they are; on a new
    collector, [AddMetric x] makes a scrape be served [x] alone. *)
Theorem C9_AddMetric c m x :
  storedMetrics (AddMetric m c) = storedMetrics c ++ [m] /\
  last (storedMetrics (AddMetric m c)) = Some m /\
  length (storedMetrics (AddMetric m c)) = S (length (storedMetrics c)) /\
  staleMetrics (AddMetric m c) = staleMetrics c /\
  markStaleMetrics (AddMetric m c) = markStaleMetrics c /\
  Collect (AddMetric x NewMetricsCollector) = [x].
Proof.
  split; [done|]. split; [apply last_snoc|].
  split; [|done]. simpl. rewrite length_app. simpl. lia.
Qed.

(** C10: for every collector, whether [markStaleMetrics] is set or not,
    after [ClearStoredMetric] the field [storedMetrics] is empty and
    [markStaleMetrics] is set. *)
Theorem C10_ClearStoredMetric_always c :
  storedMetrics (ClearStoredMetric c) = [] /\
  markStaleMetrics (ClearStoredMetric c) = true.
Proof. by destruct c as [st sl [|]]. Qed.

End Methods.

(** ** Concrete runs

    Samples are written as strings here. *)

(** Scenario A: nothing is served by a new collector. *)
Example scenario_A : Collect (NewMetricsCollector (Metric := string)) = [].
Proof. reflexivity. Qed.

(** Scenario C: a second [ClearStoredMetric] in an open cycle keeps serving
    the stale generation, here the empty one. *)
Example scenario_C :
  Collect (run [CallClearStoredMetric; CallAddMetric "x"; CallClearStoredMetric]
               NewMetricsCollector) = [].
Proof. reflexivity. Qed.

(** Scenario D: a completed cycle replaces what was served before. *)
Example scenario_D :
  Collect (run [CallAddMetric "x"; CallFinishedAllChecks;
                CallClearStoredMetric; CallAddMetric "y"; CallFinishedAllChecks]
               NewMetricsCollector) = ["y"].
Proof. reflexivity. Qed.

(** A sample added after [FinishedAllChecks] is served at once. *)
Example late_sample :
  Collect (run [CallClearStoredMetric; CallAddMetric "x"; CallFinishedAllChecks;
                CallAddMetric "y"]
               NewMetricsCollector) = ["x"; "y"].
Proof. reflexivity. Qed.

(** [C1_ClearStoredMetric_twice] on a collector that holds two samples, with
    a sample added and a further [ClearStoredMetric] between the two calls. *)
Lemma C1_witness :
  let c := mkCollector ["good1"; "good2"] ["old"] false in
  let ks := [CallAddMetric "partial"; CallClearStoredMetric; CallAddMetric "more"] in
  cycleOpen ks = true /\
  Collect (ClearStoredMetric (run ks (ClearStoredMetric c))) = ["good1"; "good2"] /\
  staleMetrics (ClearStoredMetric (run ks (ClearStoredMetric c)))
    = staleMetrics (run ks (ClearStoredMetric c)) /\
  markStaleMetrics (ClearStoredMetric (run ks (ClearStoredMetric c)))
    = markStaleMetrics (run ks (ClearStoredMetric c)) /\
  staleMetrics (ClearStoredMetric (run ks (ClearStoredMetric c))) = ["good1"; "good2"] /\
  markStaleMetrics (ClearStoredMetric (run ks (ClearStoredMetric c))) = true.
Proof.
  intros c ks. split; [reflexivity|].
  exact (C1_ClearStoredMetric_twice c ks eq_refl).
Defined.

(** C2 fails as stated: after a completed cycle that recorded no sample a
    scrape is served nothing, be it the first cycle or one that follows a
    cycle with samples. *)
Lemma C2_counterexample :
  Collect (run [CallClearStoredMetric; CallFinishedAllChecks]
               (NewMetricsCollector (Metric := string))) = [] /\
  Collect (run [CallClearStoredMetric; CallAddMetric "x"; CallFinishedAllChecks;
                CallClearStoredMetric; CallFinishedAllChecks]
               NewMetricsCollector) = [].
Proof. split; reflexivity. Qed.

(** [C2_no_visible_gap] on a run with a late sample and a stacked
    [ClearStoredMetric]. *)
Lemma C2_witness :
  let pre := [CallClearStoredMetric; CallAddMetric "x"] in
  let ks := [CallAddMetric "y"; CallClearStoredMetric; CallAddMetric "z"] in
  cycleOpen ks = true /\
  Collect (run (pre ++ CallFinishedAllChecks :: (CallAddMetric <$> ["w"])
                    ++ CallClearStoredMetric :: ks) NewMetricsCollector)
    = ["x"; "w"].
Proof.
  intros pre ks. split; [reflexivity|].
  exact (proj2 (proj2 (C2_no_visible_gap NewMetricsCollector pre ["w"] ks eq_refl))).
Defined.

(** C3 fails as stated: in an open cycle that has recorded a sample,
    [markStaleMetrics] is set and [ClearStoredMetric] drops the sample. *)
Lemma C3_counterexample :
  let c := run [CallClearStoredMetric; CallAddMetric "x"] NewMetricsCollector in
  markStaleMetrics c = true /\
  storedMetrics c = ["x"] /\
  storedMetrics (ClearStoredMetric c) = [] /\
  ClearStoredMetric c <> c.
Proof. repeat split. discriminate. Qed.

(** [C3_ClearStoredMetric_marked] on a collector with one stored and one
    stale sample. *)
Lemma C3_witness :
  let c := mkCollector ["x"] ["y"] true in
  markStaleMetrics c = true /\
  staleMetrics (ClearStoredMetric c) = ["y"] /\
  markStaleMetrics (ClearStoredMetric c) = true /\
  storedMetrics (ClearStoredMetric c) = [] /\
  (ClearStoredMetric c = c <-> storedMetrics c = []).
Proof.
  intros c. split; [reflexivity|].
  exact (C3_ClearStoredMetric_marked c eq_refl).
Defined.

(** C5 fails as stated: the label of [CbtMismatchMetric] is [cbt], not
    [cbt_mismatch_flag]. *)
Lemma C5_counterexample :
  labelSet <$> Describe (NewMetricsCollector (Metric := string))
    <> [{["version"; "api_version"]}; {["hw_version"]}; {["cbt_mismatch_flag"]}] /\
  variableLabels <$> Describe (NewMetricsCollector (Metric := string))
    <> [["version"; "api_version"]; ["hw_version"]; ["cbt_mismatch_flag"]].
Proof.
  split; [|discriminate].
  intros H.
  assert ("cbt" ∈ default (∅ : gset string)
            ((labelSet <$> Describe (NewMetricsCollector (Metric := string))) !! 2))
    as Hin by (unfold labelSet; set_solver).
  rewrite H in Hin. simpl in Hin. apply elem_of_singleton in Hin. discriminate.
Qed.

(** [C6_ClearStoredMetric_unmarked] on a collector with two stored samples
    and one stale sample. *)
Lemma C6_witness :
  let c := mkCollector ["x"; "y"] ["z"] false in
  markStaleMetrics c = false /\
  staleMetrics (ClearStoredMetric c) = ["x"; "y"] /\
  markStaleMetrics (ClearStoredMetric c) = true /\
  storedMetrics (ClearStoredMetric c) = [].
Proof.
  intros c. split; [reflexivity|].
  exact (C6_ClearStoredMetric_unmarked c eq_refl).
Defined.

(** ** Further properties of the protocol *)

Section More.

Context {Metric : Type}.
Implicit Types (c : Collector Metric) (m : Metric) (s : list Metric).
Implicit Types (ks pre : list (Call Metric)).

(** X1: from [ClearStoredMetric] on, and until the next
    [FinishedAllChecks], whatever is called, a scrape is served what it was
    served just before the [ClearStoredMetric]: the samples of the open
    cycle are never served, and [markStaleMetrics] stays set. *)
Theorem open_cycle_invisible c ks :
  cycleOpen ks = true ->
  markStaleMetrics (run (CallClearStoredMetric :: ks) c) = true /\
  staleMetrics (run (CallClearStoredMetric :: ks) c) = Collect c /\
  Collect (run (CallClearStoredMetric :: ks) c) = Collect c.
Proof.
  intros Hopen. rewrite run_cons. simpl call.
  assert (markStaleMetrics (ClearStoredMetric c) = true) as Hmark
    by (by destruct c as [st sl [|]]).
  assert (staleMetrics (ClearStoredMetric c) = Collect c) as Hstale
    by (rewrite Collect_served; by destruct c as [st sl [|]]).
  destruct (cycleOpen_keeps_stale ks _ Hopen Hmark) as [Hm Hs].
  split; [done|]. split; [congruence|].
  rewrite Collect_served, Hm. congruence.
Qed.

(** X2: after a completed cycle the collector holds the samples added
    since the last [ClearStoredMetric], as stored and as stale generation,
    and nothing of what came before; a scrape is served exactly them. *)
Theorem completed_cycle_state c pre s :
  run (pre ++ CallClearStoredMetric :: (CallAddMetric <$> s)
           ++ [CallFinishedAllChecks]) c
    = mkCollector s s false /\
  Collect (run (pre ++ CallClearStoredMetric :: (CallAddMetric <$> s)
                    ++ [CallFinishedAllChecks]) c) = s.
Proof.
  assert (run (pre ++ CallClearStoredMetric :: (CallAddMetric <$> s)
                   ++ [CallFinishedAllChecks]) c = mkCollector s s false) as H.
  { rewrite run_app, run_cons, run_app, run_AddMetric. simpl.
    by destruct (run pre c) as [st sl [|]]. }
  split; [done|]. by rewrite H, Collect_served.
Qed.

(** X3: [ClearStoredMetric] and [FinishedAllChecks] are idempotent on the
    whole collector, and [ClearStoredMetric] directly followed by
    [FinishedAllChecks] leaves a new collector, whatever was held before. *)
Theorem cycle_calls_compose c :
  ClearStoredMetric (ClearStoredMetric c) = ClearStoredMetric c /\
  FinishedAllChecks (FinishedAllChecks c) = FinishedAllChecks c /\
  FinishedAllChecks (ClearStoredMetric c) = NewMetricsCollector.
Proof. by destruct c as [st sl [|]]. Qed.

(** X4: only [ClearStoredMetric] drops samples.  Over a sequence of calls
    without it, [storedMetrics] grows by every sample added, in order, and a
    [FinishedAllChecks] at the end has them all served. *)
Theorem noClear_accumulates c ks :
  noClear ks = true ->
  storedMetrics (run ks c) = storedMetrics c ++ added ks /\
  Collect (run (ks ++ [CallFinishedAllChecks]) c) = storedMetrics c ++ added ks.
Proof.
  intros Hno.
  assert (storedMetrics (run ks c) = storedMetrics c ++ added ks) as H.
  { revert c. induction ks as [|k ks IH]; intros c.
    - simpl. by rewrite app_nil_r.
    - simpl in Hno. apply andb_prop in Hno as [Hk Hno].
      rewrite run_cons. destruct k as [|m|]; simpl in Hk; [done| |].
      + rewrite (IH Hno). simpl. by rewrite <- app_assoc.
      + by rewrite (IH Hno). }
  split; [done|].
  rewrite run_app, run_cons, run_nil. simpl call.
  by rewrite Collect_FinishedAllChecks.
Qed.

(** What [ks] adds comes after what was added before, with the stored
    generation at the very end and the stale one somewhere inside. *)
Lemma run_segments ks c (l : list Metric) :
  storedMetrics c `suffix_of` l ->
  segment (staleMetrics c) l ->
  storedMetrics (run ks c) `suffix_of` (l ++ added ks) /\
  segment (staleMetrics (run ks c)) (l ++ added ks).
Proof.
  revert c l. induction ks as [|k ks IH]; intros c l Hst Hsl.
  - simpl. by rewrite app_nil_r.
  - rewrite run_cons. destruct k as [|m|]; simpl added.
    + apply IH.
      * exists l. simpl. by rewrite app_nil_r.
      * destruct c as [st sl [|]]; simpl in *; [done|].
        destruct Hst as [l1 ->]. exists l1, []. by rewrite app_nil_r.
    + rewrite (cons_middle m l (added ks)), app_assoc. apply IH.
      * destruct Hst as [l1 ->]. exists l1. simpl. by rewrite <- app_assoc.
      * destruct Hsl as (l1 & l2 & ->). exists l1, (l2 ++ [m]). simpl.
        by rewrite <- !app_assoc.
    + apply IH; [done|].
      destruct Hst as [l1 ->]. exists l1, []. simpl. by rewrite app_nil_r.
Qed.

(** X5: whatever is called on a new collector, a scrape is served a run
    of consecutive samples of those added, in the order they were added: no
    sample is made up, served out of order, or served more often than it
    was added. *)
Theorem served_segment_of_added ks :
  segment (Collect (run ks NewMetricsCollector)) (added ks).
Proof.
  destruct (run_segments ks NewMetricsCollector [])
    as [[l1 Hst] Hsl]; [by exists []|by exists [], []|].
  rewrite Collect_served. simpl in *.
  destruct (markStaleMetrics (run ks NewMetricsCollector)); [done|].
  exists l1, []. by rewrite app_nil_r.
Qed.

(** X6: samples added while [markStaleMetrics] is not set are served at
    once, after those served before; samples added while it is set are not
    served. *)
Theorem added_samples_served c s :
  Collect (run (CallAddMetric <$> s) c)
    = if markStaleMetrics c then Collect c else Collect c ++ s.
Proof.
  rewrite run_AddMetric, !Collect_served. simpl.
  by destruct (markStaleMetrics c).
Qed.

Lemma call_staleBehind k c : staleBehind c -> staleBehind (call c k).
Proof.
  intros H. destruct k as [|m|].
  - left. by destruct c as [st sl [|]].
  - destruct H as [H|H]; [by left|right].
    simpl. by apply prefix_app_r.
  - by right.
Qed.

(** X7: whatever is called on a new collector, while [markStaleMetrics] is
    not set, [staleMetrics] is a prefix of [storedMetrics]: the generation
    last committed is still at the front of what is served. *)
Theorem reachable_staleBehind ks : staleBehind (run ks NewMetricsCollector).
Proof.
  assert (forall c, staleBehind c -> staleBehind (run ks c)) as H.
  { induction ks as [|k ks IH]; intros c Hc; [done|].
    rewrite run_cons. by apply IH, call_staleBehind. }
  apply H. by right.
Qed.

End More.

(** X8: sharing of backing arrays is never seen.  Whatever capacity
    [append] grows to, as long as it is large enough, after any sequence of
    calls on a new collector a scrape of the collector over slices sends
    exactly the samples a scrape of the collector over sequences is served,
    and leaves the heap and the slices as they are. *)
Theorem slices_serve_same {Metric : Type} (zeroMetric : Metric)
    (growcap : nat -> nat -> nat) :
  (forall oldCap newLen, newLen <= growcap oldCap newLen) ->
  forall (ks : list (Call Metric)) (ch : chan Metric),
    Slices.CollectWithStability
      (Slices.run zeroMetric growcap ks Slices.NewMetricsCollector) ch
    = (Slices.run zeroMetric growcap ks Slices.NewMetricsCollector,
       ch ++ Collect (run ks NewMetricsCollector)).
Proof.
  intros Hfit ks ch.
  destruct (NewMetricsCollector_refines (Metric := Metric)) as [Hinv Habs].
  destruct (run_refines zeroMetric growcap Hfit ks _ Hinv) as [_ Hrun].
  rewrite CollectWithStability_refines, Hrun, Habs. f_equal.
  unfold CollectWithStability.
  destruct (markStaleMetrics (run ks NewMetricsCollector)) eqn:Hmark;
    simpl; by rewrite sendAll_app, Collect_served, Hmark.
Qed.

(** [open_cycle_invisible] on a collector that serves one sample. *)
Lemma open_cycle_invisible_witness :
  let c := mkCollector ["x"] ["y"] false in
  let ks := [CallAddMetric "z"; CallClearStoredMetric; CallAddMetric "w"] in
  cycleOpen ks = true /\
  markStaleMetrics (run (CallClearStoredMetric :: ks) c) = true /\
  staleMetrics (run (CallClearStoredMetric :: ks) c) = ["x"] /\
  Collect (run (CallClearStoredMetric :: ks) c) = ["x"].
Proof.
  intros c ks. split; [reflexivity|].
  exact (open_cycle_invisible c ks eq_refl).
Defined.

(** [noClear_accumulates] on two rounds of checks without
    [ClearStoredMetric] in between. *)
Lemma noClear_accumulates_witness :
  let c := mkCollector ["x"] [] true in
  let ks := [CallAddMetric "a"; CallFinishedAllChecks; CallAddMetric "a"] in
  noClear ks = true /\
  storedMetrics (run ks c) = ["x"; "a"; "a"] /\
  Collect (run (ks ++ [CallFinishedAllChecks]) c) = ["x"; "a"; "a"].
Proof.
  intros c ks. split; [reflexivity|].
  exact (noClear_accumulates c ks eq_refl).
Defined.

(** [slices_serve_same] under the doubling policy, on a run that appends
    into a shared array. *)
Lemma slices_serve_same_witness :
  let ks := [CallAddMetric "a"; CallAddMetric "b"; CallAddMetric "c";
             CallFinishedAllChecks; CallAddMetric "d";
             CallClearStoredMetric; CallAddMetric "e"] in
  (forall oldCap newLen, newLen <= Slices.doubling oldCap newLen) /\
  (Slices.CollectWithStability
     (Slices.run "" Slices.doubling ks Slices.NewMetricsCollector) []).2
    = ["a"; "b"; "c"; "d"].
Proof.
  intros ks.
  assert (forall oldCap newLen, newLen <= Slices.doubling oldCap newLen) as Hfit
    by (intros; unfold Slices.doubling; lia).
  split; [exact Hfit|].
  exact (f_equal snd (slices_serve_same "" Slices.doubling Hfit ks [])).
Defined.
